(** * simple-mcp: the host information tool

    A shallow embedding of [src/tools.py] and [src/main.py].  Both files
    define [get_host_info], which reads three strings from Python's
    [platform] module, stores them in a dict and returns [json.dumps] of
    that dict; [tools.py] also prints the result when run as a script.

    Python strings are lists of code points.  [json.dumps] and
    [json.loads] are the standard library routines the program calls and
    its properties are stated with; they are embedded after CPython's
    [Lib/json/encoder.py] and [Lib/json/decoder.py], for the values that
    can occur here (None, bool, str, list, dict with str keys). *)

From Stdlib Require Import NArith ZArith List String Ascii Bool Lia.
Import ListNotations.

Local Open Scope N_scope.
Local Open Scope list_scope.

(** ** Python strings *)

(** A code point, [ord(c)]; Python's [str] holds any value in
    [range(0x110000)], surrogates included. *)
Definition codepoint := N.
Definition pystr := list codepoint.

Definition valid_codepoint (c : codepoint) : Prop := c <= 0x10FFFF.
Definition valid_str (s : pystr) : Prop := Forall valid_codepoint s.

(** A string literal of the source, as a Python string. *)
Definition lit (s : string) : pystr := map N_of_ascii (list_ascii_of_string s).

Definition pystr_eqb (a b : pystr) : bool :=
  (fix go (a b : pystr) : bool :=
     match a, b with
     | [], [] => true
     | x :: a', y :: b' => (x =? y) && go a' b'
     | _, _ => false
     end) a b.

(** ** Python values and dicts *)

#[warnings="-register-all"]
Inductive pyval : Type :=
| PyNone
| PyBool (b : bool)
| PyStr (s : pystr)
| PyList (items : list pyval)
| PyDict (entries : list (pystr * pyval)).

(** A dict keeps its keys in insertion order; assigning to a key that is
    present replaces the value in place. *)
Definition pydict := list (pystr * pyval).

Fixpoint dict_setitem (d : pydict) (k : pystr) (v : pyval) : pydict :=
  match d with
  | [] => [(k, v)]
  | (k', v') :: d' =>
      if pystr_eqb k' k then (k', v) :: d' else (k', v') :: dict_setitem d' k v
  end.

(** A dict display [{k1: v1, k2: v2, ...}] and [dict(pairs)]: the items are
    stored from left to right. *)
Definition dict_of_pairs (pairs : list (pystr * pyval)) : pydict :=
  fold_left (fun d kv => dict_setitem d (fst kv) (snd kv)) pairs [].

(** ** json.dumps  (Lib/json/encoder.py, default settings) *)

Module Encoder.

(** One digit of the ['x'] presentation type: [0-9a-f]. *)
Definition hex_digit (d : N) : codepoint :=
  if d <? 10 then 48 + d else 87 + d.

Fixpoint hex_digits (fuel : nat) (n : N) : pystr :=
  match fuel with
  | O => []
  | S fuel' =>
      if n <? 16 then [hex_digit n]
      else hex_digits fuel' (n / 16) ++ [hex_digit (n mod 16)]
  end.

(** [format(n, 'x')]: the digits of [n], no padding. *)
Definition format_x (n : N) : pystr :=
  hex_digits (S (N.to_nat (N.log2 n))) n.

(** ['{0:04x}'.format(n)]: zero padded to a width of at least four. *)
Definition format_04x (n : N) : pystr :=
  let d := format_x n in
  repeat 48 (4 - List.length d)%nat ++ d.

(** [ESCAPE_DCT]: the two-character escapes, and [\u00XX] for the other
    control characters (the [setdefault] loop over [range(0x20)]). *)
Definition ESCAPE_DCT (c : codepoint) : option pystr :=
  if c =? 92 then Some [92; 92]
  else if c =? 34 then Some [92; 34]
  else if c =? 8 then Some [92; 98]
  else if c =? 12 then Some [92; 102]
  else if c =? 10 then Some [92; 110]
  else if c =? 13 then Some [92; 114]
  else if c =? 9 then Some [92; 116]
  else if c <? 0x20 then Some ([92; 117] ++ format_04x c)
  else None.

(** Does the pattern [ESCAPE_ASCII] match this character?  It matches a
    backslash, a double quote and everything outside space .. tilde. *)
Definition ESCAPE_ASCII (c : codepoint) : bool :=
  (c =? 92) || (c =? 34) || negb ((32 <=? c) && (c <=? 126)).

(** The [replace] callback of [py_encode_basestring_ascii]. *)
Definition replace (c : codepoint) : pystr :=
  match ESCAPE_DCT c with
  | Some r => r
  | None =>
      if c <? 0x10000 then [92; 117] ++ format_04x c
      else
        let n := c - 0x10000 in
        let s1 := N.lor 0xd800 (N.land (N.shiftr n 10) 0x3ff) in
        let s2 := N.lor 0xdc00 (N.land n 0x3ff) in
        [92; 117] ++ format_04x s1 ++ [92; 117] ++ format_04x s2
  end.

(** [ESCAPE_ASCII.sub(replace, s)] on one character. *)
Definition escape_char (c : codepoint) : pystr :=
  if ESCAPE_ASCII c then replace c else [c].

Definition escape_body (s : pystr) : pystr := flat_map escape_char s.

(** [py_encode_basestring_ascii(s)]: the JSON string token of [s]. *)
Definition encode_basestring_ascii (s : pystr) : pystr :=
  [34] ++ escape_body s ++ [34].

(** [', '.join(chunks)] with the default item separator. *)
Fixpoint join_items (chunks : list pystr) : pystr :=
  match chunks with
  | [] => []
  | [c] => c
  | c :: rest => c ++ [44; 32] ++ join_items rest
  end.

(** [_iterencode], [_iterencode_list] and [_iterencode_dict], with the
    chunks already concatenated; the key separator is [': ']. *)
Fixpoint iterencode (o : pyval) : pystr :=
  match o with
  | PyNone => lit "null"
  | PyBool true => lit "true"
  | PyBool false => lit "false"
  | PyStr s => encode_basestring_ascii s
  | PyList items =>
      [91] ++ join_items (map iterencode items) ++ [93]
  | PyDict entries =>
      [123] ++
      join_items
        (map (fun kv => encode_basestring_ascii (fst kv) ++ [58; 32]
                        ++ iterencode (snd kv)) entries)
      ++ [125]
  end.

End Encoder.

(** [json.dumps(obj)] with every keyword argument at its default
    ([ensure_ascii=True], [separators=(', ', ': ')], no indent). *)
Definition json_dumps (obj : pyval) : pystr := Encoder.iterencode obj.

(** ** json.loads  (Lib/json/decoder.py, Lib/json/scanner.py) *)

Module Decoder.

(** [WHITESPACE_STR = ' \t\n\r'] *)
Definition is_ws (c : codepoint) : bool :=
  (c =? 32) || (c =? 9) || (c =? 10) || (c =? 13).

(** [WHITESPACE.match(s, end).end()] *)
Fixpoint skip_ws (s : pystr) : pystr :=
  match s with
  | c :: rest => if is_ws c then skip_ws rest else s
  | [] => []
  end.

(** The [BACKSLASH] table. *)
Definition BACKSLASH (c : codepoint) : option codepoint :=
  if c =? 34 then Some 34
  else if c =? 92 then Some 92
  else if c =? 47 then Some 47
  else if c =? 98 then Some 8
  else if c =? 102 then Some 12
  else if c =? 110 then Some 10
  else if c =? 114 then Some 13
  else if c =? 116 then Some 9
  else None.

(** The value of one character of [[0-9A-Fa-f]]. *)
Definition hex_value (c : codepoint) : option N :=
  if (48 <=? c) && (c <=? 57) then Some (c - 48)
  else if (97 <=? c) && (c <=? 102) then Some (c - 87)
  else if (65 <=? c) && (c <=? 70) then Some (c - 55)
  else None.

(** [_decode_uXXXX]: [int(esc, 16)] of four hexadecimal digits. *)
Definition decode_uXXXX (h1 h2 h3 h4 : codepoint) : option N :=
  match hex_value h1, hex_value h2, hex_value h3, hex_value h4 with
  | Some a, Some b, Some c, Some d => Some (((a * 16 + b) * 16 + c) * 16 + d)
  | _, _, _, _ => None
  end.

Definition is_high_surrogate (u : N) : bool := (0xd800 <=? u) && (u <=? 0xdbff).
Definition is_low_surrogate (u : N) : bool := (0xdc00 <=? u) && (u <=? 0xdfff).

(** [0x10000 + (((uni - 0xd800) << 10) | (uni2 - 0xdc00))] *)
Definition combine_surrogates (uni uni2 : N) : codepoint :=
  0x10000 + N.lor (N.shiftl (uni - 0xd800) 10) (uni2 - 0xdc00).

(** Put a decoded character in front of the rest of the scan. *)
Definition emit (c : codepoint) (r : option (pystr * pystr)) : option (pystr * pystr) :=
  match r with
  | Some (chars, rest) => Some (c :: chars, rest)
  | None => None
  end.

(** [py_scanstring(s, end, strict=True)], called just after the opening
    quote: the decoded string and what follows the closing quote; [None]
    where the source raises [JSONDecodeError]. *)
Fixpoint py_scanstring (s : pystr) : option (pystr * pystr) :=
  match s with
  | [] => None
  | c :: rest =>
      if c =? 34 then Some ([], rest)
      else if c =? 92 then
        match rest with
        | [] => None
        | esc :: rest1 =>
            if esc =? 117 then
              match rest1 with
              | h1 :: h2 :: h3 :: h4 :: rest2 =>
                  match decode_uXXXX h1 h2 h3 h4 with
                  | None => None
                  | Some uni =>
                      if is_high_surrogate uni then
                        match rest2 with
                        | b :: rest3 =>
                            if b =? 92 then
                              match rest3 with
                              | u :: rest4 =>
                                  if u =? 117 then
                                    match rest4 with
                                    | l1 :: l2 :: l3 :: l4 :: rest5 =>
                                        match decode_uXXXX l1 l2 l3 l4 with
                                        | None => None
                                        | Some uni2 =>
                                            if is_low_surrogate uni2
                                            then emit (combine_surrogates uni uni2)
                                                      (py_scanstring rest5)
                                            else emit uni (py_scanstring rest2)
                                        end
                                    | _ => None
                                    end
                                  else emit uni (py_scanstring rest2)
                              | [] => emit uni (py_scanstring rest2)
                              end
                            else emit uni (py_scanstring rest2)
                        | [] => emit uni (py_scanstring rest2)
                        end
                      else emit uni (py_scanstring rest2)
                  end
              | _ => None
              end
            else
              match BACKSLASH esc with
              | Some ch => emit ch (py_scanstring rest1)
              | None => None
              end
        end
      else if c <? 0x20 then None
      else emit c (py_scanstring rest)
  end.

Definition scanner := pystr -> option (pyval * pystr).

(** The [while True] loop of [JSONObject]; [s] starts at a key, just
    after its opening quote. *)
Fixpoint object_loop (scan_once : scanner) (fuel : nat) (s : pystr)
    (pairs : list (pystr * pyval)) : option (pyval * pystr) :=
  match fuel with
  | O => None
  | S fuel' =>
      match py_scanstring s with
      | None => None
      | Some (key, s1) =>
          match skip_ws s1 with
          | c :: s2 =>
              if c =? 58 then
                match scan_once (skip_ws s2) with
                | None => None
                | Some (value, s3) =>
                    let pairs' := pairs ++ [(key, value)] in
                    match skip_ws s3 with
                    | d :: s4 =>
                        if d =? 125 then Some (PyDict (dict_of_pairs pairs'), s4)
                        else if d =? 44 then
                          match skip_ws s4 with
                          | q :: s5 =>
                              if q =? 34 then object_loop scan_once fuel' s5 pairs'
                              else None
                          | [] => None
                          end
                        else None
                    | [] => None
                    end
                end
              else None
          | [] => None
          end
      end
  end.

(** [JSONObject((s, end), strict, scan_once, ...)], called just after the
    opening brace, with no hooks. *)
Definition JSONObject (scan_once : scanner) (fuel : nat) (s : pystr)
    : option (pyval * pystr) :=
  match skip_ws s with
  | c :: s1 =>
      if c =? 125 then Some (PyDict [], s1)
      else if c =? 34 then object_loop scan_once fuel s1 []
      else None
  | [] => None
  end.

(** The loop of [JSONArray]; [s] starts at a value. *)
Fixpoint array_loop (scan_once : scanner) (fuel : nat) (s : pystr)
    (values : list pyval) : option (pyval * pystr) :=
  match fuel with
  | O => None
  | S fuel' =>
      match scan_once s with
      | None => None
      | Some (value, s1) =>
          let values' := values ++ [value] in
          match skip_ws s1 with
          | d :: s2 =>
              if d =? 93 then Some (PyList values', s2)
              else if d =? 44 then array_loop scan_once fuel' (skip_ws s2) values'
              else None
          | [] => None
          end
      end
  end.

(** [JSONArray((s, end), scan_once)], called just after the bracket. *)
Definition JSONArray (scan_once : scanner) (fuel : nat) (s : pystr)
    : option (pyval * pystr) :=
  match skip_ws s with
  | c :: s1 =>
      if c =? 93 then Some (PyList [], s1)
      else array_loop scan_once fuel (c :: s1) []
  | [] => None
  end.

(** Is [p] a prefix of [s]?  Then the rest of [s]. *)
Fixpoint strip_prefix (p s : pystr) : option pystr :=
  match p, s with
  | [], _ => Some s
  | x :: p', y :: s' => if x =? y then strip_prefix p' s' else None
  | _ :: _, [] => None
  end.

(** [_scan_once] of [py_make_scanner].  Number literals are outside this
    embedding and are reported like a missing value; [fuel] bounds the
    nesting depth and the number of items of a container. *)
Fixpoint scan_once (fuel : nat) (s : pystr) : option (pyval * pystr) :=
  match fuel with
  | O => None
  | S fuel' =>
      match s with
      | [] => None
      | c :: rest =>
          if c =? 34 then
            match py_scanstring rest with
            | Some (str, rest') => Some (PyStr str, rest')
            | None => None
            end
          else if c =? 123 then JSONObject (scan_once fuel') fuel' rest
          else if c =? 91 then JSONArray (scan_once fuel') fuel' rest
          else
            match strip_prefix (lit "null") s with
            | Some r => Some (PyNone, r)
            | None =>
                match strip_prefix (lit "true") s with
                | Some r => Some (PyBool true, r)
                | None =>
                    match strip_prefix (lit "false") s with
                    | Some r => Some (PyBool false, r)
                    | None => None
                    end
                end
            end
      end
  end.

(** [JSONDecoder.decode]: one value between optional white space, then
    the end of the document ("Extra data" otherwise). *)
Definition decode (s : pystr) : option pyval :=
  match scan_once (S (List.length s)) (skip_ws s) with
  | Some (obj, rest) =>
      match skip_ws rest with
      | [] => Some obj
      | _ :: _ => None
      end
  | None => None
  end.

End Decoder.

(** [json.loads(s)] with the default decoder; [None] stands for a raised
    [JSONDecodeError] (and for a document with a number literal, which the
    embedding leaves out). *)
Definition json_loads (s : pystr) : option pyval := Decoder.decode s.

(** ** The process: host facts, standard output, exceptions *)

(** A raised exception: its class and its message. *)
Inductive pyexn : Type :=
| PyExn (cls : string) (msg : string).

Inductive outcome (A : Type) : Type :=
| Return (a : A)
| Raise (e : pyexn).
Arguments Return {A} a.
Arguments Raise {A} e.

(** What the operating system tells the [platform] module.  A query
    either gives a string or fails with an exception.  Only the first
    three are read by the program; the other fields are further host
    facts the same facility serves, which the program never asks for. *)
Record Host : Type := mkHost {
  os_system : outcome pystr;      (* platform.system() *)
  os_machine : outcome pystr;     (* platform.machine() *)
  os_platform : outcome pystr;    (* platform.platform() *)
  os_node : pystr;                (* platform.node() *)
  os_release : pystr;             (* platform.release() *)
  os_cpu_count : N                (* os.cpu_count() *)
}.

Record World : Type := mkWorld {
  host : Host;
  stdout : pystr
}.

(** Python code: it reads and updates the world and returns or raises. *)
Definition Py (A : Type) : Type := World -> outcome A * World.

Definition ret {A} (a : A) : Py A := fun w => (Return a, w).

Definition bind {A B} (m : Py A) (k : A -> Py B) : Py B :=
  fun w =>
    match m w with
    | (Return a, w') => k a w'
    | (Raise e, w') => (Raise e, w')
    end.

Notation "x <- m ;; k" := (bind m (fun x => k))
  (at level 61, m at next level, right associativity).

(** The three queries of the [platform] module. *)
Definition platform_system : Py pystr := fun w => (os_system (host w), w).
Definition platform_machine : Py pystr := fun w => (os_machine (host w), w).
Definition platform_platform : Py pystr := fun w => (os_platform (host w), w).

(** [print(x)] for a string [x]: the string and a newline go to standard
    output. *)
Definition print (x : pystr) : Py unit :=
  fun w => (Return tt, mkWorld (host w) (stdout w ++ x ++ [10])).

(** ** src/tools.py *)

Module Tools.

Definition get_host_info : Py pystr :=
  v_os <- platform_system ;;
  v_architecture <- platform_machine ;;
  v_platform <- platform_platform ;;
  let system_info :=
    dict_of_pairs [ (lit "os", PyStr v_os);
                    (lit "architecture", PyStr v_architecture);
                    (lit "platform", PyStr v_platform) ] in
  ret (json_dumps (PyDict system_info)).

(** The module body: [def get_host_info], then the guarded [print].
    [name] is the value of [__name__]. *)
Definition module_body (name : string) : Py unit :=
  if String.eqb name "__main__" then
    out <- get_host_info ;;
    print out
  else ret tt.

End Tools.

(** ** src/main.py *)

Module Main.

(** The registry of a [FastMCP] service (the [mcp] package, which the
    program imports): tool names and the functions behind them. *)
Definition registry := list (string * Py pystr).

(** The decorator [@mcp.tool()]: it records the function under its own
    name and gives the function back unchanged. *)
Definition mcp_tool (tools : registry) (name : string) (fn : Py pystr)
    : Py pystr * registry :=
  (fn, tools ++ [(name, fn)]).

(** The function body under the decorator. *)
Definition get_host_info_def : Py pystr :=
  v_os <- platform_system ;;
  v_architecture <- platform_machine ;;
  v_platform <- platform_platform ;;
  let system_info :=
    dict_of_pairs [ (lit "os", PyStr v_os);
                    (lit "architecture", PyStr v_architecture);
                    (lit "platform", PyStr v_platform) ] in
  ret (json_dumps (PyDict system_info)).

(** The name [get_host_info] of the module after decoration, and the
    tools of [mcp]. *)
Definition get_host_info : Py pystr :=
  fst (mcp_tool [] "get_host_info" get_host_info_def).

Definition mcp_tools : registry :=
  snd (mcp_tool [] "get_host_info" get_host_info_def).

(** Calling a registered tool by name. *)
Fixpoint call_tool (tools : registry) (name : string) : option (Py pystr) :=
  match tools with
  | [] => None
  | (n, fn) :: rest => if String.eqb n name then Some fn else call_tool rest name
  end.

End Main.

(** ** Running a script *)

(** The interpreter runs a file as [__main__]: exit status 0 when the module
    body finishes, 1 when an exception escapes it (the traceback goes to
    standard error, which is not modelled). *)
Definition run_script (body : string -> Py unit) (w : World) : N * pystr :=
  match body "__main__"%string w with
  | (Return _, w') => (0, stdout w')
  | (Raise _, w') => (1, stdout w')
  end.

(** * Vocabulary of the properties *)

(** A literal written with apostrophes for the double quotes. *)
Definition quoted (s : string) : pystr :=
  map (fun c => if c =? 39 then 34 else c) (lit s).

Import Encoder Decoder.

Definition is_ascii (c : codepoint) : Prop := c < 128.

(** Below [0x10000] the format is exactly four digits. *)
Definition four_digits (n : N) : pystr :=
  [hex_digit (n / 4096); hex_digit ((n / 256) mod 16);
   hex_digit ((n / 16) mod 16); hex_digit (n mod 16)].

(** The output of [escape_char] for [c], by the way the scanner will
    read it back. *)
Inductive escape_of (c : codepoint) : pystr -> Prop :=
| escape_plain :
    32 <= c <= 126 -> c <> 34 -> c <> 92 -> escape_of c [c]
| escape_short e :
    BACKSLASH e = Some c -> e <> 117 -> c <= 92 -> escape_of c [92; e]
| escape_u4 :
    c < 0x10000 -> escape_of c ([92; 117] ++ four_digits c)
| escape_pair h l :
    h < 0x10000 -> l < 0x10000 ->
    is_high_surrogate h = true -> is_low_surrogate l = true ->
    c = combine_surrogates h l ->
    escape_of c ([92; 117] ++ four_digits h ++ [92; 117] ++ four_digits l).

(** What [py_scanstring] does after a high surrogate escape: the look
    ahead for a low surrogate escape. *)
Definition after_high (uni : N) (rest2 : pystr) : option (pystr * pystr) :=
  match rest2 with
  | b :: rest3 =>
      if b =? 92 then
        match rest3 with
        | u :: rest4 =>
            if u =? 117 then
              match rest4 with
              | l1 :: l2 :: l3 :: l4 :: rest5 =>
                  match decode_uXXXX l1 l2 l3 l4 with
                  | None => None
                  | Some uni2 =>
                      if is_low_surrogate uni2
                      then emit (combine_surrogates uni uni2) (py_scanstring rest5)
                      else emit uni (py_scanstring rest2)
                  end
              | _ => None
              end
            else emit uni (py_scanstring rest2)
        | [] => emit uni (py_scanstring rest2)
        end
      else emit uni (py_scanstring rest2)
  | [] => emit uni (py_scanstring rest2)
  end.

(** Reading a string token joins every high surrogate that is directly
    followed by a low surrogate into the code point the pair stands for. *)
Fixpoint join_surrogates (s : pystr) : pystr :=
  match s with
  | [] => []
  | c :: t =>
      match t with
      | c' :: t' =>
          if Decoder.is_high_surrogate c && Decoder.is_low_surrogate c'
          then Decoder.combine_surrogates c c' :: join_surrogates t'
          else c :: join_surrogates t
      | [] => [c]
      end
  end.

(** No high surrogate of [s] is directly followed by a low surrogate. *)
Fixpoint pair_free (s : pystr) : bool :=
  match s with
  | [] => true
  | c :: t =>
      match t with
      | c' :: _ =>
          negb (Decoder.is_high_surrogate c && Decoder.is_low_surrogate c')
          && pair_free t
      | [] => true
      end
  end.

(** The dict [system_info] of [get_host_info] for the three strings read. *)
Definition host_info (a b c : pystr) : pyval :=
  PyDict [ (lit "os", PyStr a); (lit "architecture", PyStr b);
           (lit "platform", PyStr c) ].

(** The three strings the program reads when every query succeeds. *)
Definition reads (h : Host) (a b c : pystr) : Prop :=
  os_system h = Return a /\ os_machine h = Return b /\ os_platform h = Return c.

(** The strings the host reports are Python strings. *)
Definition valid_report (r : outcome pystr) : Prop :=
  match r with
  | Return s => valid_str s
  | Raise _ => True
  end.

Definition valid_host (h : Host) : Prop :=
  valid_report (os_system h) /\ valid_report (os_machine h) /\
  valid_report (os_platform h).

(** Two hosts that answer the three queries alike. *)
Definition same_reports (h1 h2 : Host) : Prop :=
  os_system h1 = os_system h2 /\ os_machine h1 = os_machine h2 /\
  os_platform h1 = os_platform h2.

(** The strings of a host as the [platform] module obtains them.
    [os.uname()] decodes the system's bytes with the surrogateescape
    handler, which yields none but low surrogates (U+DC80 .. U+DCFF), and
    the other sources decode strictly or join the pairs of wide strings:
    no reported string holds a high surrogate directly followed by a low
    surrogate as two code points. *)
Definition pair_free_report (r : outcome pystr) : Prop :=
  match r with
  | Return s => pair_free s = true
  | Raise _ => True
  end.

Definition decoded_reports (h : Host) : Prop :=
  pair_free_report (os_system h) /\ pair_free_report (os_machine h) /\
  pair_free_report (os_platform h).

(** The host of Scenario A, some host that fails to report its machine,
    and a world in which the system name is made to hold the two
    surrogates of U+1F600 as two code points. *)
Definition scenario_A : Host :=
  mkHost (Return (lit "Linux")) (Return (lit "x86_64"))
         (Return (lit "Linux-5.15.0-x86_64-with-glibc2.31"))
         (lit "build-01") (lit "5.15.0") 8.

Definition scenario_A_elsewhere : Host :=
  mkHost (Return (lit "Linux")) (Return (lit "x86_64"))
         (Return (lit "Linux-5.15.0-x86_64-with-glibc2.31"))
         (lit "build-02") (lit "5.15.0") 64.

Definition uname_failure : pyexn := PyExn "OSError" "uname failed".

Definition scenario_C : Host :=
  mkHost (Return (lit "Linux")) (Raise uname_failure)
         (Return (lit "Linux-5.15.0-x86_64-with-glibc2.31"))
         (lit "build-01") (lit "5.15.0") 8.

Definition surrogate_host : Host :=
  mkHost (Return [0xD83D; 0xDE00]) (Return (lit "x86_64"))
         (Return (lit "Linux-5.15.0-x86_64-with-glibc2.31"))
         (lit "build-01") (lit "5.15.0") 8.


(** A printable ASCII character, space to tilde; and one that the encoder
    writes as it is (neither the double quote nor the backslash). *)
Definition is_printable (c : codepoint) : Prop := 32 <= c <= 126.

Definition is_plain (c : codepoint) : Prop := 32 <= c <= 126 /\ c <> 34 /\ c <> 92.

(** A host whose system name is the single code point U+1F600, and a host
    that cannot determine its machine type. *)
Definition emoji_host : Host :=
  mkHost (Return [0x1F600]) (Return (lit "x86_64"))
         (Return (lit "Linux-5.15.0-x86_64-with-glibc2.31"))
         (lit "build-01") (lit "5.15.0") 8.

Definition undetermined_host : Host :=
  mkHost (Return (lit "Linux")) (Return [])
         (Return (lit "Linux-5.15.0-x86_64-with-glibc2.31"))
         (lit "build-01") (lit "5.15.0") 8.

(** * Properties *)

(** Linear arithmetic with division and remainder by constants, and case
    analysis on the comparisons of a goal. *)
Ltac div_lia := zify; Z.to_euclidean_division_equations; lia.

Ltac cases_N :=
  repeat match goal with
    | |- context [N.eqb ?a ?b] => destruct (N.eqb_spec a b); try lia
    | |- context [N.ltb ?a ?b] => destruct (N.ltb_spec a b); try lia
    | |- context [N.leb ?a ?b] => destruct (N.leb_spec a b); try lia
    end.

(** ** Hexadecimal digits *)

Section Hex.

Lemma hex_digit_ascii d : d < 16 -> is_ascii (hex_digit d).
Proof.
  unfold is_ascii, hex_digit; intros Hd.
  destruct (N.ltb_spec d 10); lia.
Qed.

Lemma hex_digits_ascii fuel : forall n, Forall is_ascii (hex_digits fuel n).
Proof.
  induction fuel as [|fuel IH]; intros n; simpl; [constructor|].
  destruct (N.ltb_spec n 16) as [Hlt|Hge].
  - constructor; [now apply hex_digit_ascii | constructor].
  - apply Forall_app; split; [apply IH|].
    constructor; [|constructor].
    apply hex_digit_ascii. apply N.mod_lt. discriminate.
Qed.

Lemma format_04x_ascii n : Forall is_ascii (format_04x n).
Proof.
  unfold format_04x, format_x. apply Forall_app; split.
  - generalize (4 - List.length (hex_digits (S (N.to_nat (N.log2 n))) n))%nat.
    intros k; induction k; simpl; constructor; [unfold is_ascii; lia | assumption].
  - apply hex_digits_ascii.
Qed.

Lemma hex_digits_S fuel n :
  hex_digits (S fuel) n =
  if n <? 16 then [hex_digit n]
  else hex_digits fuel (n / 16) ++ [hex_digit (n mod 16)].
Proof. reflexivity. Qed.

Lemma format_04x_small n : n < 0x10000 -> format_04x n = four_digits n.
Proof.
  intros Hn. unfold format_04x, format_x, four_digits.
  destruct (N.ltb_spec n 16) as [H1|H1].
  { rewrite hex_digits_S. apply N.ltb_lt in H1 as H1'. rewrite H1'. simpl.
    rewrite !(N.div_small n) by lia. rewrite (N.mod_small n 16) by lia.
    reflexivity. }
  assert (Hlog : 4 <= N.log2 n).
  { change 4 with (N.log2 16). now apply N.log2_le_mono. }
  destruct (N.to_nat (N.log2 n)) as [|[|[|[|k]]]] eqn:Ek; try lia.
  rewrite hex_digits_S. apply N.ltb_ge in H1 as H1'. rewrite H1'.
  rewrite hex_digits_S.
  destruct (N.ltb_spec (n / 16) 16) as [H2|H2].
  { simpl.
    replace (n / 4096) with 0 by div_lia.
    replace (n / 256) with 0 by div_lia.
    replace ((n / 16) mod 16) with (n / 16) by div_lia.
    reflexivity. }
  rewrite hex_digits_S.
  replace (n / 16 / 16) with (n / 256) by div_lia.
  destruct (N.ltb_spec (n / 256) 16) as [H3|H3].
  { simpl.
    replace (n / 4096) with 0 by div_lia.
    replace ((n / 256) mod 16) with (n / 256) by div_lia.
    reflexivity. }
  rewrite hex_digits_S.
  replace (n / 256 / 16) with (n / 4096) by div_lia.
  replace (n / 4096 <? 16) with true by (symmetry; apply N.ltb_lt; div_lia).
  reflexivity.
Qed.

Lemma hex_value_digit d : d < 16 -> hex_value (hex_digit d) = Some d.
Proof.
  intros Hd. unfold hex_value, hex_digit.
  destruct (N.ltb_spec d 10).
  - replace ((48 <=? 48 + d) && (48 + d <=? 57)) with true.
    + f_equal; lia.
    + symmetry. apply andb_true_iff; split; apply N.leb_le; lia.
  - replace ((48 <=? 87 + d) && (87 + d <=? 57)) with false.
    + replace ((97 <=? 87 + d) && (87 + d <=? 102)) with true.
      * f_equal; lia.
      * symmetry. apply andb_true_iff; split; apply N.leb_le; lia.
    + symmetry. apply andb_false_iff; right. apply N.leb_gt; lia.
Qed.

Lemma decode_four_digits n :
  n < 0x10000 ->
  decode_uXXXX (hex_digit (n / 4096)) (hex_digit ((n / 256) mod 16))
               (hex_digit ((n / 16) mod 16)) (hex_digit (n mod 16)) = Some n.
Proof.
  intros Hn. unfold decode_uXXXX.
  rewrite !hex_value_digit;
    try (apply N.mod_lt; discriminate);
    try (apply N.Div0.div_lt_upper_bound; lia).
  f_equal. div_lia.
Qed.

End Hex.

(** ** Surrogate arithmetic *)

Section Surrogates.

Lemma land_shiftl_low x a k : a < 2 ^ k -> N.land (N.shiftl x k) a = 0.
Proof.
  intros Ha. apply N.bits_inj. intros i.
  rewrite N.land_spec, N.bits_0.
  destruct (N.ltb_spec i k) as [Hi|Hi].
  - now rewrite N.shiftl_spec_low.
  - rewrite <- (N.mod_small a (2 ^ k)) by assumption.
    rewrite N.mod_pow2_bits_high by assumption.
    apply andb_false_r.
Qed.

Lemma lor_shiftl_low x a k :
  a < 2 ^ k -> N.lor (N.shiftl x k) a = x * 2 ^ k + a.
Proof.
  intros Ha.
  rewrite <- N.lxor_lor by now apply land_shiftl_low.
  rewrite <- N.add_nocarry_lxor by now apply land_shiftl_low.
  now rewrite N.shiftl_mul_pow2.
Qed.

Lemma land_0x3ff x : N.land x 0x3ff = x mod 1024.
Proof. change 0x3ff with (N.ones 10). now rewrite N.land_ones. Qed.

Lemma shiftr_10 x : N.shiftr x 10 = x / 1024.
Proof. now rewrite N.shiftr_div_pow2. Qed.

(** The two code units [s1] and [s2] the encoder computes. *)
Lemma high_unit n :
  N.lor 0xd800 (N.land (N.shiftr n 10) 0x3ff) = 0xd800 + (n / 1024) mod 1024.
Proof.
  rewrite land_0x3ff, shiftr_10.
  change 0xd800 with (N.shiftl 54 10) at 1.
  rewrite lor_shiftl_low by (apply N.mod_lt; discriminate).
  reflexivity.
Qed.

Lemma low_unit n :
  N.lor 0xdc00 (N.land n 0x3ff) = 0xdc00 + n mod 1024.
Proof.
  rewrite land_0x3ff.
  change 0xdc00 with (N.shiftl 55 10) at 1.
  rewrite lor_shiftl_low by (apply N.mod_lt; discriminate).
  reflexivity.
Qed.

Lemma combine_surrogates_arith u u2 :
  is_low_surrogate u2 = true ->
  combine_surrogates u u2 = 0x10000 + ((u - 0xd800) * 1024 + (u2 - 0xdc00)).
Proof.
  unfold is_low_surrogate, combine_surrogates. intros H.
  apply andb_true_iff in H as [H1 H2].
  apply N.leb_le in H1, H2.
  rewrite lor_shiftl_low by (change (2 ^ 10) with 1024; lia).
  reflexivity.
Qed.

Lemma is_high_iff u : is_high_surrogate u = true <-> 0xd800 <= u <= 0xdbff.
Proof.
  unfold is_high_surrogate.
  rewrite andb_true_iff, !N.leb_le. reflexivity.
Qed.

Lemma is_low_iff u : is_low_surrogate u = true <-> 0xdc00 <= u <= 0xdfff.
Proof.
  unfold is_low_surrogate.
  rewrite andb_true_iff, !N.leb_le. reflexivity.
Qed.

Lemma is_high_false u : is_high_surrogate u = false <-> u < 0xd800 \/ 0xdbff < u.
Proof.
  unfold is_high_surrogate.
  rewrite andb_false_iff, !N.leb_gt. reflexivity.
Qed.

Lemma is_low_false u : is_low_surrogate u = false <-> u < 0xdc00 \/ 0xdfff < u.
Proof.
  unfold is_low_surrogate.
  rewrite andb_false_iff, !N.leb_gt. reflexivity.
Qed.

(** Joining a pair gives a supplementary code point... *)
Lemma combine_range h l :
  is_high_surrogate h = true -> is_low_surrogate l = true ->
  0x10000 <= combine_surrogates h l <= 0x10FFFF.
Proof.
  intros Hh Hl. rewrite combine_surrogates_arith by assumption.
  apply is_high_iff in Hh. apply is_low_iff in Hl. lia.
Qed.

(** ... whose two code units are the pair again... *)
Lemma split_combine h l :
  is_high_surrogate h = true -> is_low_surrogate l = true ->
  let n := combine_surrogates h l - 0x10000 in
  0xd800 + (n / 1024) mod 1024 = h /\ 0xdc00 + n mod 1024 = l.
Proof.
  intros Hh Hl. rewrite combine_surrogates_arith by assumption.
  apply is_high_iff in Hh. apply is_low_iff in Hl.
  cbv zeta. split; div_lia.
Qed.

(** ... and the code units of a supplementary code point join to it. *)
Lemma combine_split c :
  0x10000 <= c <= 0x10FFFF ->
  let n := c - 0x10000 in
  let s1 := 0xd800 + (n / 1024) mod 1024 in
  let s2 := 0xdc00 + n mod 1024 in
  is_high_surrogate s1 = true /\ is_low_surrogate s2 = true /\
  combine_surrogates s1 s2 = c.
Proof.
  intros Hc. cbv zeta.
  assert (Hlow : is_low_surrogate (0xdc00 + (c - 0x10000) mod 1024) = true)
    by (apply is_low_iff; div_lia).
  split; [apply is_high_iff; div_lia|].
  split; [assumption|].
  rewrite combine_surrogates_arith by assumption. div_lia.
Qed.

End Surrogates.

(** ** The escapes of one character *)

Section EscapeChar.

Lemma escape_char_plain c :
  32 <= c <= 126 -> c <> 34 -> c <> 92 -> escape_char c = [c].
Proof.
  intros H H34 H92. unfold escape_char, ESCAPE_ASCII.
  cases_N. reflexivity.
Qed.

Lemma escape_char_u4 c :
  c < 0x10000 -> 127 <= c \/ (c < 32 /\ ~ In c [8; 9; 10; 12; 13]) ->
  escape_char c = [92; 117] ++ four_digits c.
Proof.
  intros Hc Hcls. unfold escape_char, ESCAPE_ASCII, replace, ESCAPE_DCT.
  simpl In in Hcls.
  cases_N; simpl; try (now rewrite format_04x_small by assumption);
    exfalso; intuition lia.
Qed.

Lemma escape_char_pair c :
  0x10000 <= c ->
  escape_char c =
    [92; 117] ++ four_digits (0xd800 + ((c - 0x10000) / 1024) mod 1024) ++
    [92; 117] ++ four_digits (0xdc00 + (c - 0x10000) mod 1024).
Proof.
  intros Hc. unfold escape_char, ESCAPE_ASCII, replace, ESCAPE_DCT.
  cases_N. cbv zeta.
  rewrite high_unit, low_unit.
  rewrite !format_04x_small by div_lia.
  reflexivity.
Qed.

Lemma escape_char_of c : valid_codepoint c -> escape_of c (escape_char c).
Proof.
  unfold valid_codepoint. intros Hc.
  destruct (N.ltb_spec c 0x10000) as [Hbmp|Hsup].
  - destruct (N.leb_spec 127 c) as [H127|H127].
    { rewrite escape_char_u4 by auto. now constructor. }
    destruct (N.leb_spec 32 c) as [H32|H32].
    { destruct (N.eqb_spec c 34) as [->|N34];
        [apply (escape_short 34 34); [reflexivity | discriminate | lia]|].
      destruct (N.eqb_spec c 92) as [->|N92];
        [apply (escape_short 92 92); [reflexivity | discriminate | lia]|].
      rewrite escape_char_plain by lia. constructor; lia. }
    destruct (N.eqb_spec c 8) as [->|N8];
      [apply (escape_short 8 98); [reflexivity | discriminate | lia]|].
    destruct (N.eqb_spec c 9) as [->|N9];
      [apply (escape_short 9 116); [reflexivity | discriminate | lia]|].
    destruct (N.eqb_spec c 10) as [->|N10];
      [apply (escape_short 10 110); [reflexivity | discriminate | lia]|].
    destruct (N.eqb_spec c 12) as [->|N12];
      [apply (escape_short 12 102); [reflexivity | discriminate | lia]|].
    destruct (N.eqb_spec c 13) as [->|N13];
      [apply (escape_short 13 114); [reflexivity | discriminate | lia]|].
    rewrite escape_char_u4; [now constructor | lia |].
    right. split; [lia|]. simpl. intuition lia.
  - rewrite escape_char_pair by assumption.
    destruct (combine_split c (conj Hsup Hc)) as (Hh & Hl & Hcomb).
    apply escape_pair; auto; div_lia.
Qed.

End EscapeChar.

(** ** Scanning an encoded string *)

Section ScanString.

Lemma scan_u_escape h1 h2 h3 h4 rest2 :
  py_scanstring (92 :: 117 :: h1 :: h2 :: h3 :: h4 :: rest2) =
  match decode_uXXXX h1 h2 h3 h4 with
  | None => None
  | Some uni =>
      if is_high_surrogate uni then after_high uni rest2
      else emit uni (py_scanstring rest2)
  end.
Proof. reflexivity. Qed.

Lemma scan_four_digits n X :
  n < 0x10000 ->
  py_scanstring ([92; 117] ++ four_digits n ++ X) =
  if is_high_surrogate n then after_high n X else emit n (py_scanstring X).
Proof.
  intros Hn. unfold four_digits.
  cbn [app]. rewrite scan_u_escape, decode_four_digits by assumption.
  reflexivity.
Qed.

Lemma scan_plain c X :
  32 <= c -> c <> 34 -> c <> 92 ->
  py_scanstring (c :: X) = emit c (py_scanstring X).
Proof.
  intros H32 H34 H92. cbn [py_scanstring].
  cases_N. reflexivity.
Qed.

Lemma scan_short e c X :
  BACKSLASH e = Some c -> e <> 117 ->
  py_scanstring (92 :: e :: X) = emit c (py_scanstring X).
Proof.
  intros HB He. cbn [py_scanstring].
  change (92 =? 34) with false. change (92 =? 92) with true. cbv iota.
  destruct (N.eqb_spec e 117); [contradiction|].
  now rewrite HB.
Qed.

(** After a high surrogate escape, the escape of a character that is not
    a low surrogate (or the closing quote) is left for the next round. *)
Lemma after_high_quote uni rest :
  after_high uni (34 :: rest) = emit uni (py_scanstring (34 :: rest)).
Proof. reflexivity. Qed.

Lemma after_high_escape uni c t X :
  escape_of c t -> is_low_surrogate c = false ->
  after_high uni (t ++ X) = emit uni (py_scanstring (t ++ X)).
Proof.
  intros Ht Hc. destruct Ht as [Hr H34 H92 | e HB He Hle | Hlt | h l Hh Hl Hhs Hls Heq].
  - cbn [app after_high]. cases_N. reflexivity.
  - cbn [app after_high]. change (92 =? 92) with true. cbv iota.
    destruct (N.eqb_spec e 117); [contradiction | reflexivity].
  - unfold four_digits. cbn [app after_high].
    change (92 =? 92) with true. change (117 =? 117) with true. cbv iota.
    rewrite decode_four_digits by assumption. now rewrite Hc.
  - unfold four_digits at 1. cbn [app after_high].
    change (92 =? 92) with true. change (117 =? 117) with true. cbv iota.
    rewrite decode_four_digits by assumption.
    replace (is_low_surrogate h) with false; [reflexivity|].
    symmetry. apply is_low_false. apply is_high_iff in Hhs. lia.
Qed.

Lemma after_high_low uni l X :
  is_low_surrogate l = true ->
  after_high uni (([92; 117] ++ four_digits l) ++ X) =
  emit (combine_surrogates uni l) (py_scanstring X).
Proof.
  intros Hl. unfold four_digits. cbn [app after_high].
  change (92 =? 92) with true. change (117 =? 117) with true. cbv iota.
  rewrite decode_four_digits by (apply is_low_iff in Hl; lia).
  now rewrite Hl.
Qed.

(** One escaped character that is not a high surrogate is read back as
    itself. *)
Lemma scan_escape_of c t X :
  escape_of c t -> is_high_surrogate c = false ->
  py_scanstring (t ++ X) = emit c (py_scanstring X).
Proof.
  intros Ht Hc. destruct Ht as [Hr H34 H92 | e HB He Hle | Hlt | h l Hh Hl Hhs Hls Heq].
  - apply scan_plain; lia.
  - now apply scan_short.
  - rewrite <- app_assoc, scan_four_digits by assumption. now rewrite Hc.
  - rewrite <- !app_assoc. rewrite scan_four_digits by assumption.
    rewrite Hhs. rewrite app_assoc, after_high_low by assumption.
    now subst c.
Qed.

End ScanString.

(** ** Reading back what the encoder wrote *)

Section RoundTrip.

Lemma join_cons2 c c' t' :
  join_surrogates (c :: c' :: t') =
  if is_high_surrogate c && is_low_surrogate c'
  then combine_surrogates c c' :: join_surrogates t'
  else c :: join_surrogates (c' :: t').
Proof. reflexivity. Qed.

Lemma join_not_high c t :
  is_high_surrogate c = false -> join_surrogates (c :: t) = c :: join_surrogates t.
Proof.
  intros Hc. destruct t as [|c' t']; [reflexivity|].
  cbn [join_surrogates]. now rewrite Hc.
Qed.

Lemma join_pair_free s : pair_free s = true -> join_surrogates s = s.
Proof.
  induction s as [|c t IH]; [reflexivity|].
  destruct t as [|c' t']; [reflexivity|].
  cbn [pair_free join_surrogates].
  intros H. apply andb_true_iff in H as [H1 H2].
  apply negb_true_iff in H1. rewrite H1.
  f_equal. now apply IH.
Qed.

Lemma join_nonempty s : s <> [] -> join_surrogates s <> [].
Proof.
  destruct s as [|c [|c' t']]; [congruence | discriminate |].
  intros _. cbn [join_surrogates].
  destruct (is_high_surrogate c && is_low_surrogate c'); discriminate.
Qed.

Lemma escape_body_cons c t : escape_body (c :: t) = escape_char c ++ escape_body t.
Proof. reflexivity. Qed.

(** The scanner reads the body of an encoded string, up to the closing
    quote, as the joined string. *)
Lemma scan_escape_body_len n :
  forall s rest, (List.length s <= n)%nat -> valid_str s ->
    py_scanstring (escape_body s ++ 34 :: rest) = Some (join_surrogates s, rest).
Proof.
  induction n as [|n IH]; intros s rest Hlen Hs.
  { destruct s; [reflexivity | simpl in Hlen; lia]. }
  destruct s as [|c t]; [reflexivity|].
  inversion Hs as [|? ? Hc Ht]; subst.
  simpl in Hlen.
  rewrite escape_body_cons, <- app_assoc.
  pose proof (escape_char_of c Hc) as Hesc.
  destruct (is_high_surrogate c) eqn:Hhigh.
  - (* a high surrogate: the scanner looks at the next escape *)
    apply is_high_iff in Hhigh as Hrange.
    rewrite escape_char_u4 by lia.
    rewrite <- app_assoc, scan_four_digits by lia. rewrite Hhigh.
    destruct t as [|c' t'].
    + reflexivity.
    + inversion Ht as [|? ? Hc' Ht']; subst.
      rewrite escape_body_cons, <- app_assoc.
      destruct (is_low_surrogate c') eqn:Hlow.
      * apply is_low_iff in Hlow as Hrange'.
        rewrite (escape_char_u4 c') by lia.
        rewrite after_high_low by assumption.
        rewrite IH by (simpl in Hlen |- *; auto; lia).
        cbn [join_surrogates]. now rewrite Hhigh, Hlow.
      * rewrite (after_high_escape c c' (escape_char c'))
          by (auto using escape_char_of).
        rewrite app_assoc, <- escape_body_cons.
        rewrite IH by (simpl in Hlen |- *; auto; lia).
        cbn [join_surrogates emit]. rewrite Hhigh, Hlow. reflexivity.
  - rewrite (scan_escape_of c (escape_char c)) by assumption.
    rewrite IH by (auto; lia).
    now rewrite join_not_high.
Qed.

Lemma scan_escape_body s rest :
  valid_str s ->
  py_scanstring (escape_body s ++ 34 :: rest) = Some (join_surrogates s, rest).
Proof. intros Hs. now apply (scan_escape_body_len (List.length s)). Qed.

(** Encoding does not tell a joined pair from its two halves. *)
Lemma escape_char_combine h l :
  is_high_surrogate h = true -> is_low_surrogate l = true ->
  escape_char (combine_surrogates h l) = escape_char h ++ escape_char l.
Proof.
  intros Hh Hl.
  pose proof (combine_range h l Hh Hl) as Hr.
  pose proof (split_combine h l Hh Hl) as [E1 E2]. cbv zeta in E1, E2.
  rewrite escape_char_pair by lia. rewrite E1, E2.
  apply is_high_iff in Hh. apply is_low_iff in Hl.
  rewrite (escape_char_u4 h), (escape_char_u4 l) by lia.
  now rewrite <- !app_assoc.
Qed.

Lemma escape_body_join_len n :
  forall s, (List.length s <= n)%nat -> escape_body (join_surrogates s) = escape_body s.
Proof.
  induction n as [|n IH]; intros s Hlen.
  { destruct s; [reflexivity | simpl in Hlen; lia]. }
  destruct s as [|c [|c' t']]; [reflexivity | reflexivity |].
  simpl in Hlen. rewrite join_cons2.
  destruct (is_high_surrogate c && is_low_surrogate c') eqn:Hpair.
  - apply andb_true_iff in Hpair as [Hh Hl].
    rewrite !escape_body_cons, escape_char_combine by assumption.
    rewrite IH by lia. now rewrite <- app_assoc.
  - rewrite escape_body_cons, IH by (simpl; lia). reflexivity.
Qed.

Lemma escape_body_join s : escape_body (join_surrogates s) = escape_body s.
Proof. now apply (escape_body_join_len (List.length s)). Qed.

End RoundTrip.

(** ** The document of get_host_info *)

Section Document.

Lemma dumps_host_info a b c :
  json_dumps (host_info a b c) =
  quoted "{'os': '" ++ escape_body a ++
  quoted "', 'architecture': '" ++ escape_body b ++
  quoted "', 'platform': '" ++ escape_body c ++ quoted "'}".
Proof.
  unfold json_dumps, host_info. cbn [iterencode map join_items fst snd].
  unfold encode_basestring_ascii.
  repeat rewrite <- app_assoc. reflexivity.
Qed.

Lemma scan_host_info fuel a b c tail :
  valid_str a -> valid_str b -> valid_str c ->
  scan_once (S (S (S (S fuel)))) (json_dumps (host_info a b c) ++ tail) =
  Some (host_info (join_surrogates a) (join_surrogates b) (join_surrogates c),
        tail).
Proof.
  intros Ha Hb Hc. rewrite dumps_host_info.
  repeat rewrite <- app_assoc.
  cbn. rewrite scan_escape_body by assumption.
  cbn. rewrite scan_escape_body by assumption.
  cbn. rewrite scan_escape_body by assumption.
  reflexivity.
Qed.

(** [json.loads] of the document: the dict of the three joined strings. *)
Lemma loads_host_info a b c :
  valid_str a -> valid_str b -> valid_str c ->
  json_loads (json_dumps (host_info a b c)) =
  Some (host_info (join_surrogates a) (join_surrogates b) (join_surrogates c)).
Proof.
  intros Ha Hb Hc. unfold json_loads, decode.
  assert (Hws : skip_ws (json_dumps (host_info a b c)) =
                json_dumps (host_info a b c)) by reflexivity.
  rewrite Hws.
  assert (Hlen : exists fuel,
             List.length (json_dumps (host_info a b c)) = S (S (S fuel))).
  { rewrite dumps_host_info. cbn [quoted lit map list_ascii_of_string app List.length].
    eexists. reflexivity. }
  destruct Hlen as [fuel ->].
  rewrite <- (app_nil_r (json_dumps (host_info a b c))).
  rewrite scan_host_info by assumption.
  reflexivity.
Qed.

(** Writing the parsed document again gives the same text. *)
Lemma dumps_joined a b c :
  json_dumps (host_info (join_surrogates a) (join_surrogates b) (join_surrogates c))
  = json_dumps (host_info a b c).
Proof. rewrite !dumps_host_info, !escape_body_join. reflexivity. Qed.

End Document.

(** ** What get_host_info computes *)

Section GetHostInfo.

Lemma get_host_info_run w :
  Tools.get_host_info w =
  (match os_system (host w) with
   | Raise e => Raise e
   | Return a =>
       match os_machine (host w) with
       | Raise e => Raise e
       | Return b =>
           match os_platform (host w) with
           | Raise e => Raise e
           | Return c => Return (json_dumps (host_info a b c))
           end
       end
   end, w).
Proof.
  unfold Tools.get_host_info, bind, platform_system, platform_machine,
    platform_platform, ret.
  destruct (os_system (host w)); [|reflexivity].
  destruct (os_machine (host w)); [|reflexivity].
  destruct (os_platform (host w)); reflexivity.
Qed.

Lemma get_host_info_reads w a b c :
  reads (host w) a b c ->
  Tools.get_host_info w = (Return (json_dumps (host_info a b c)), w).
Proof.
  intros (Ha & Hb & Hc). rewrite get_host_info_run, Ha, Hb, Hc. reflexivity.
Qed.

Lemma get_host_info_returns w out :
  fst (Tools.get_host_info w) = Return out ->
  exists a b c, reads (host w) a b c /\ out = json_dumps (host_info a b c).
Proof.
  rewrite get_host_info_run. unfold reads. cbn [fst].
  destruct (os_system (host w)) as [a|]; [|discriminate].
  destruct (os_machine (host w)) as [b|]; [|discriminate].
  destruct (os_platform (host w)) as [c|]; [|discriminate].
  intros [= <-]. now exists a, b, c.
Qed.

Lemma valid_host_reads h a b c :
  valid_host h -> reads h a b c -> valid_str a /\ valid_str b /\ valid_str c.
Proof.
  unfold valid_host, reads. intros (Va & Vb & Vc) (Ha & Hb & Hc).
  rewrite Ha in Va. rewrite Hb in Vb. rewrite Hc in Vc. auto.
Qed.

End GetHostInfo.

(** ** The claims *)

(** C2 (Scenario A).  On a host that reports the system [Linux], the
    machine [x86_64] and the platform
    [Linux-5.15.0-x86_64-with-glibc2.31], [get_host_info] returns exactly
    the text below (written here with apostrophes for the double quotes):
    the same code points, separators and spacing included. *)
Theorem scenario_A_output w :
  os_system (host w) = Return (lit "Linux") ->
  os_machine (host w) = Return (lit "x86_64") ->
  os_platform (host w) = Return (lit "Linux-5.15.0-x86_64-with-glibc2.31") ->
  fst (Tools.get_host_info w) =
  Return (quoted "{'os': 'Linux', 'architecture': 'x86_64', 'platform': 'Linux-5.15.0-x86_64-with-glibc2.31'}").
Proof.
  intros Hs Hm Hp.
  rewrite (get_host_info_reads w _ _ _ (conj Hs (conj Hm Hp))).
  reflexivity.
Qed.

Lemma scenario_A_output_witness :
  fst (Tools.get_host_info (mkWorld scenario_A [])) =
  Return (quoted "{'os': 'Linux', 'architecture': 'x86_64', 'platform': 'Linux-5.15.0-x86_64-with-glibc2.31'}").
Proof.
  apply (scenario_A_output (mkWorld scenario_A [])); reflexivity.
Defined.

(** C3 (determinism).  The result of [get_host_info] is a function of the
    three reported values alone: two invocations in worlds that agree on
    the system, machine and platform reports give the same outcome (the
    same string, code point for code point, or the same exception),
    whatever else differs between the two worlds; and an invocation leaves
    the world as it found it. *)
Theorem get_host_info_deterministic w1 w2 :
  same_reports (host w1) (host w2) ->
  fst (Tools.get_host_info w1) = fst (Tools.get_host_info w2) /\
  snd (Tools.get_host_info w1) = w1 /\
  snd (Tools.get_host_info w2) = w2.
Proof.
  intros (Hs & Hm & Hp).
  rewrite !get_host_info_run. cbn [fst snd].
  rewrite Hs, Hm, Hp. auto.
Qed.

Lemma get_host_info_deterministic_witness :
  same_reports scenario_A scenario_A_elsewhere /\
  fst (Tools.get_host_info (mkWorld scenario_A [])) =
  fst (Tools.get_host_info (mkWorld scenario_A_elsewhere (lit "earlier output"))).
Proof.
  split.
  - repeat split.
  - apply (get_host_info_deterministic
             (mkWorld scenario_A [])
             (mkWorld scenario_A_elsewhere (lit "earlier output"))).
    repeat split.
Defined.

(** C5 (the two definitions agree).  [get_host_info] of [src/main.py], as
    the module names it after decoration and as the service calls it by its
    tool name, behaves in every world like [get_host_info] of
    [src/tools.py]: the same returned string or the same raised exception,
    and the same world afterwards; so one fails exactly when the other
    does. *)
Theorem main_agrees_with_tools w :
  Main.get_host_info w = Tools.get_host_info w /\
  (exists fn, Main.call_tool Main.mcp_tools "get_host_info" = Some fn /\
              fn w = Tools.get_host_info w) /\
  (forall e, fst (Main.get_host_info w) = Raise e <->
             fst (Tools.get_host_info w) = Raise e).
Proof.
  assert (E : Main.get_host_info w = Tools.get_host_info w) by reflexivity.
  split; [exact E|]. split.
  - exists Main.get_host_info_def. split; reflexivity.
  - intros e. rewrite E. reflexivity.
Qed.

(** C6 (Scenario B).  Run as a script, [src/tools.py] writes to standard
    output the string [get_host_info] returns followed by one newline, and
    nothing else, and the process exits with status 0. *)
Theorem tools_script_prints w out :
  fst (Tools.get_host_info w) = Return out ->
  run_script Tools.module_body w = (0, stdout w ++ out ++ [10]).
Proof.
  intros Hout.
  unfold run_script, Tools.module_body. cbn [String.eqb Ascii.eqb Bool.eqb].
  unfold bind, print.
  pose proof (get_host_info_run w) as Hrun.
  destruct (Tools.get_host_info w) as [r w'] eqn:E.
  cbn [fst] in Hout. subst r.
  injection Hrun as _ ->. reflexivity.
Qed.

Lemma tools_script_prints_witness :
  run_script Tools.module_body (mkWorld scenario_A []) =
  (0, quoted "{'os': 'Linux', 'architecture': 'x86_64', 'platform': 'Linux-5.15.0-x86_64-with-glibc2.31'}" ++ [10]).
Proof.
  apply (tools_script_prints (mkWorld scenario_A [])). reflexivity.
Defined.

(** C7 (Scenario C).  When one of the three reads raises an exception (the
    reads before it having succeeded), [get_host_info] raises that very
    exception: it returns no string, the world is untouched, and the script
    writes nothing to standard output and exits with status 1. *)
Theorem get_host_info_propagates w e :
  os_system (host w) = Raise e \/
  (exists a, os_system (host w) = Return a /\ os_machine (host w) = Raise e) \/
  (exists a b, os_system (host w) = Return a /\ os_machine (host w) = Return b /\
               os_platform (host w) = Raise e) ->
  Tools.get_host_info w = (Raise e, w) /\
  (forall out, fst (Tools.get_host_info w) <> Return out) /\
  run_script Tools.module_body w = (1, stdout w).
Proof.
  intros H.
  assert (E : Tools.get_host_info w = (Raise e, w)).
  { rewrite get_host_info_run.
    destruct H as [Hs | [(a & Hs & Hm) | (a & b & Hs & Hm & Hp)]].
    - now rewrite Hs.
    - now rewrite Hs, Hm.
    - now rewrite Hs, Hm, Hp. }
  split; [exact E|]. split.
  - intros out. rewrite E. discriminate.
  - unfold run_script, Tools.module_body. cbn [String.eqb Ascii.eqb Bool.eqb].
    unfold bind. rewrite E. reflexivity.
Qed.

Lemma get_host_info_propagates_witness :
  Tools.get_host_info (mkWorld scenario_C []) = (Raise uname_failure, mkWorld scenario_C []) /\
  (forall out, fst (Tools.get_host_info (mkWorld scenario_C [])) <> Return out) /\
  run_script Tools.module_body (mkWorld scenario_C []) = (1, []).
Proof.
  apply (get_host_info_propagates (mkWorld scenario_C []) uname_failure).
  right; left. exists (lit "Linux"). split; reflexivity.
Defined.

(** *** ASCII output *)

Ltac valid_by_evaluation :=
  repeat first
    [ apply Forall_nil
    | apply Forall_cons; [vm_compute; discriminate|] ].

Ltac ascii_parts :=
  cbn [app];
  repeat first
    [ apply Forall_nil
    | apply Forall_cons; [unfold is_ascii; lia|]
    | apply format_04x_ascii
    | apply Forall_app; split ].

Lemma escape_char_ascii c : Forall is_ascii (escape_char c).
Proof.
  unfold escape_char, ESCAPE_ASCII.
  destruct ((c =? 92) || (c =? 34) || negb ((32 <=? c) && (c <=? 126))) eqn:E.
  - unfold replace, ESCAPE_DCT. cbv zeta.
    repeat match goal with
      | |- context [if ?b then _ else _] => destruct b
      end; ascii_parts.
  - apply orb_false_iff in E as [_ E]. apply negb_false_iff in E.
    apply andb_true_iff in E as [_ E]. apply N.leb_le in E.
    repeat constructor. unfold is_ascii. lia.
Qed.

Lemma escape_body_ascii s : Forall is_ascii (escape_body s).
Proof.
  induction s as [|c t IH]; [constructor|].
  rewrite escape_body_cons. apply Forall_app; split;
    [apply escape_char_ascii | exact IH].
Qed.

Lemma ascii_by_check s : forallb (fun c => c <? 128) s = true -> Forall is_ascii s.
Proof.
  intros H. apply Forall_forall. intros c Hin.
  rewrite forallb_forall in H. apply N.ltb_lt. now apply H.
Qed.

Lemma dumps_host_info_ascii a b c : Forall is_ascii (json_dumps (host_info a b c)).
Proof.
  rewrite dumps_host_info.
  repeat (apply Forall_app; split);
    try apply escape_body_ascii;
    now apply ascii_by_check.
Qed.

(** C10 (ASCII).  The string [get_host_info] returns holds ASCII
    characters only.  It is the three key texts around the escaped bodies
    of the reported strings, and a character above 127 in a reported
    string is written as the escape backslash-u with four hexadecimal
    digits below [0x10000], and as the two such escapes of its surrogate
    pair from [0x10000] on. *)
Theorem output_is_ascii w out :
  fst (Tools.get_host_info w) = Return out ->
  Forall is_ascii out /\
  (exists a b c,
     reads (host w) a b c /\
     out = quoted "{'os': '" ++ escape_body a ++
           quoted "', 'architecture': '" ++ escape_body b ++
           quoted "', 'platform': '" ++ escape_body c ++ quoted "'}") /\
  (forall ch, 128 <= ch ->
     escape_char ch =
       if ch <? 0x10000 then lit "\u" ++ four_digits ch
       else lit "\u" ++
            four_digits (N.lor 0xd800 (N.land (N.shiftr (ch - 0x10000) 10) 0x3ff)) ++
            lit "\u" ++
            four_digits (N.lor 0xdc00 (N.land (ch - 0x10000) 0x3ff))).
Proof.
  intros Hout.
  destruct (get_host_info_returns w out Hout) as (a & b & c & Hr & ->).
  split; [apply dumps_host_info_ascii|]. split.
  - exists a, b, c. split; [exact Hr | apply dumps_host_info].
  - intros ch Hch. destruct (N.ltb_spec ch 0x10000) as [Hlt|Hge].
    + apply escape_char_u4; [assumption | left; lia].
    + rewrite high_unit, low_unit. now apply escape_char_pair.
Qed.

Lemma output_is_ascii_witness :
  Forall is_ascii
    (quoted "{'os': 'Linux', 'architecture': 'x86_64', 'platform': 'Linux-5.15.0-x86_64-with-glibc2.31'}").
Proof.
  apply (output_is_ascii (mkWorld scenario_A [])). reflexivity.
Defined.

(** C4 (key order).  In the string [get_host_info] returns the keys stand
    in the order os, architecture, platform, each followed by the string
    token of the value reported for it; and [json.loads], which keeps the
    order of the document, reads a dict with these three keys in this
    order. *)
Theorem keys_in_order w out :
  fst (Tools.get_host_info w) = Return out ->
  exists a b c,
    reads (host w) a b c /\
    out = quoted "{'os': " ++ encode_basestring_ascii a ++
          quoted ", 'architecture': " ++ encode_basestring_ascii b ++
          quoted ", 'platform': " ++ encode_basestring_ascii c ++ quoted "}" /\
    (valid_host (host w) ->
     exists va vb vc,
       json_loads out =
       Some (PyDict [ (lit "os", va); (lit "architecture", vb);
                      (lit "platform", vc) ])).
Proof.
  intros Hout.
  destruct (get_host_info_returns w out Hout) as (a & b & c & Hr & ->).
  exists a, b, c. split; [exact Hr|]. split.
  - rewrite dumps_host_info. unfold encode_basestring_ascii.
    repeat rewrite <- app_assoc. reflexivity.
  - intros Hv. destruct (valid_host_reads _ _ _ _ Hv Hr) as (Va & Vb & Vc).
    rewrite loads_host_info by assumption.
    now eexists _, _, _.
Qed.

Lemma keys_in_order_witness :
  exists a b c,
    reads scenario_A a b c /\
    quoted "{'os': 'Linux', 'architecture': 'x86_64', 'platform': 'Linux-5.15.0-x86_64-with-glibc2.31'}" =
      quoted "{'os': " ++ encode_basestring_ascii a ++
      quoted ", 'architecture': " ++ encode_basestring_ascii b ++
      quoted ", 'platform': " ++ encode_basestring_ascii c ++ quoted "}" /\
    (valid_host scenario_A ->
     exists va vb vc,
       json_loads (quoted "{'os': 'Linux', 'architecture': 'x86_64', 'platform': 'Linux-5.15.0-x86_64-with-glibc2.31'}") =
       Some (PyDict [ (lit "os", va); (lit "architecture", vb);
                      (lit "platform", vc) ])).
Proof.
  apply (keys_in_order (mkWorld scenario_A [])). reflexivity.
Defined.

(** C9 (round trip).  The string [get_host_info] returns is read by
    [json.loads], and [json.dumps] of the value read, which keeps the key
    order and uses the same settings, is the returned string again. *)
Theorem json_round_trip w out :
  valid_host (host w) ->
  fst (Tools.get_host_info w) = Return out ->
  exists v, json_loads out = Some v /\ json_dumps v = out.
Proof.
  intros Hv Hout.
  destruct (get_host_info_returns w out Hout) as (a & b & c & Hr & ->).
  destruct (valid_host_reads _ _ _ _ Hv Hr) as (Va & Vb & Vc).
  eexists. split.
  - now apply loads_host_info.
  - apply dumps_joined.
Qed.

Lemma json_round_trip_witness :
  exists v,
    json_loads (quoted "{'os': 'Linux', 'architecture': 'x86_64', 'platform': 'Linux-5.15.0-x86_64-with-glibc2.31'}") = Some v /\
    json_dumps v = quoted "{'os': 'Linux', 'architecture': 'x86_64', 'platform': 'Linux-5.15.0-x86_64-with-glibc2.31'}".
Proof.
  apply (json_round_trip (mkWorld scenario_A [])).
  - repeat split; valid_by_evaluation.
  - reflexivity.
Defined.




(** C1 (schema).  For every successful invocation the returned string is
    read by [json.loads] as a dict with exactly the three keys os,
    architecture, platform, each with a string value: the string the
    operating system reported for the system, the machine and the
    platform respectively, unchanged.  The reports are strings as the
    [platform] module obtains them. *)
Theorem get_host_info_schema w out :
  valid_host (host w) ->
  decoded_reports (host w) ->
  fst (Tools.get_host_info w) = Return out ->
  exists a b c,
    reads (host w) a b c /\
    json_loads out =
      Some (PyDict [ (lit "os", PyStr a); (lit "architecture", PyStr b);
                     (lit "platform", PyStr c) ]).
Proof.
  intros Hv Hd Hout.
  destruct (get_host_info_returns w out Hout) as (a & b & c & Hr & ->).
  destruct (valid_host_reads _ _ _ _ Hv Hr) as (Va & Vb & Vc).
  exists a, b, c. split; [exact Hr|].
  destruct Hr as (Ha & Hb & Hc). destruct Hd as (Pa & Pb & Pc).
  rewrite Ha in Pa. rewrite Hb in Pb. rewrite Hc in Pc.
  cbn [pair_free_report] in Pa, Pb, Pc.
  rewrite loads_host_info by assumption.
  now rewrite !join_pair_free by assumption.
Qed.

Lemma get_host_info_schema_witness :
  exists a b c,
    reads scenario_A a b c /\
    json_loads (quoted "{'os': 'Linux', 'architecture': 'x86_64', 'platform': 'Linux-5.15.0-x86_64-with-glibc2.31'}") =
      Some (PyDict [ (lit "os", PyStr a); (lit "architecture", PyStr b);
                     (lit "platform", PyStr c) ]).
Proof.
  apply (get_host_info_schema (mkWorld scenario_A [])).
  - repeat split; valid_by_evaluation.
  - repeat split.
  - reflexivity.
Defined.

(** Without that condition the document is still read as a dict of the
    three keys, with the surrogate pairs of each value joined. *)
Lemma get_host_info_parses_joined w out :
  valid_host (host w) ->
  fst (Tools.get_host_info w) = Return out ->
  exists a b c,
    reads (host w) a b c /\
    json_loads out =
      Some (PyDict [ (lit "os", PyStr (join_surrogates a));
                     (lit "architecture", PyStr (join_surrogates b));
                     (lit "platform", PyStr (join_surrogates c)) ]).
Proof.
  intros Hv Hout.
  destruct (get_host_info_returns w out Hout) as (a & b & c & Hr & ->).
  destruct (valid_host_reads _ _ _ _ Hv Hr) as (Va & Vb & Vc).
  exists a, b, c. split; [exact Hr|].
  now rewrite loads_host_info by assumption.
Qed.

(** * Further properties of the program *)

(** ** Printable output *)

Section Printable.

Lemma hex_digit_printable d : d < 16 -> is_printable (hex_digit d).
Proof.
  unfold is_printable, hex_digit. intros Hd.
  destruct (N.ltb_spec d 10); lia.
Qed.

Lemma hex_digits_printable fuel : forall n, Forall is_printable (hex_digits fuel n).
Proof.
  induction fuel as [|fuel IH]; intros n; [constructor|].
  rewrite hex_digits_S.
  destruct (N.ltb_spec n 16) as [Hlt|Hge].
  - constructor; [now apply hex_digit_printable | constructor].
  - apply Forall_app; split; [apply IH|].
    constructor; [|constructor].
    apply hex_digit_printable. apply N.mod_lt. discriminate.
Qed.

Lemma format_04x_printable n : Forall is_printable (format_04x n).
Proof.
  unfold format_04x, format_x. apply Forall_app; split.
  - apply Forall_forall. intros c Hin.
    apply repeat_spec in Hin. subst c. unfold is_printable. lia.
  - apply hex_digits_printable.
Qed.

Lemma printable_by_check s :
  forallb (fun c => (32 <=? c) && (c <=? 126)) s = true -> Forall is_printable s.
Proof.
  intros H. apply Forall_forall. intros c Hin.
  rewrite forallb_forall in H. specialize (H c Hin).
  apply andb_true_iff in H as [H1 H2].
  apply N.leb_le in H1, H2. unfold is_printable. lia.
Qed.

Lemma escape_char_printable c : Forall is_printable (escape_char c).
Proof.
  unfold escape_char, ESCAPE_ASCII.
  destruct ((c =? 92) || (c =? 34) || negb ((32 <=? c) && (c <=? 126))) eqn:E.
  - unfold replace, ESCAPE_DCT. cbv zeta.
    repeat match goal with
      | |- context [if ?b then _ else _] => destruct b
      end;
      cbn [app];
      repeat first
        [ apply Forall_nil
        | apply Forall_cons; [unfold is_printable; lia|]
        | apply format_04x_printable
        | apply Forall_app; split ].
  - apply orb_false_iff in E as [_ E]. apply negb_false_iff in E.
    apply andb_true_iff in E as [E1 E2]. apply N.leb_le in E1, E2.
    repeat constructor; assumption.
Qed.

Lemma escape_body_printable s : Forall is_printable (escape_body s).
Proof.
  induction s as [|c t IH]; [constructor|].
  rewrite escape_body_cons. apply Forall_app; split;
    [apply escape_char_printable | exact IH].
Qed.

Lemma dumps_host_info_printable a b c :
  Forall is_printable (json_dumps (host_info a b c)).
Proof.
  rewrite dumps_host_info.
  repeat (apply Forall_app; split);
    try apply escape_body_printable;
    now apply printable_by_check.
Qed.

End Printable.

(** ** The size of the output *)

Section Length.

Lemma four_digits_length n : List.length (four_digits n) = 4%nat.
Proof. reflexivity. Qed.

Lemma escape_char_length c :
  (1 <= List.length (escape_char c) <= 12)%nat.
Proof.
  destruct (N.ltb_spec c 0x10000) as [Hbmp|Hsup].
  - destruct (N.leb_spec 127 c) as [H127|H127].
    { rewrite escape_char_u4 by auto. cbn. lia. }
    destruct (N.leb_spec 32 c) as [H32|H32].
    + unfold escape_char, ESCAPE_ASCII, replace, ESCAPE_DCT.
      cases_N; cbn; lia.
    + unfold escape_char, ESCAPE_ASCII, replace, ESCAPE_DCT.
      cases_N; cbn [orb negb andb app List.length];
        try rewrite format_04x_small by lia; cbn; lia.
  - rewrite escape_char_pair by assumption. cbn. lia.
Qed.

Lemma escape_body_length s :
  (List.length s <= List.length (escape_body s) <= 12 * List.length s)%nat.
Proof.
  induction s as [|c t IH]; [simpl; lia|].
  rewrite escape_body_cons, length_app.
  pose proof (escape_char_length c). simpl List.length. lia.
Qed.

Lemma dumps_host_info_length a b c :
  List.length (json_dumps (host_info a b c)) =
  (46 + List.length (escape_body a) + List.length (escape_body b)
      + List.length (escape_body c))%nat.
Proof.
  rewrite dumps_host_info. rewrite !length_app.
  cbn [quoted lit list_ascii_of_string map List.length]. lia.
Qed.

Lemma escape_body_plain s : Forall is_plain s -> escape_body s = s.
Proof.
  induction 1 as [|c t (Hr & H34 & H92) _ IH]; [reflexivity|].
  rewrite escape_body_cons, escape_char_plain by assumption.
  cbn [app]. now rewrite IH.
Qed.

End Length.

Section Verbatim.

Lemma escape_char_not_plain c :
  ~ is_plain c -> (2 <= List.length (escape_char c))%nat.
Proof.
  unfold is_plain. intros Hn.
  destruct (N.ltb_spec c 0x10000) as [Hbmp|Hsup].
  - destruct (N.leb_spec 127 c) as [H127|H127].
    { rewrite escape_char_u4 by auto. cbn. lia. }
    destruct (N.leb_spec 32 c) as [H32|H32].
    + unfold escape_char, ESCAPE_ASCII, replace, ESCAPE_DCT.
      cases_N; cbn; lia.
    + unfold escape_char, ESCAPE_ASCII, replace, ESCAPE_DCT.
      cases_N; cbn [orb negb andb app List.length];
        try rewrite format_04x_small by lia; cbn; lia.
  - rewrite escape_char_pair by assumption. cbn. lia.
Qed.

Lemma is_plain_dec c : is_plain c \/ ~ is_plain c.
Proof. unfold is_plain. lia. Qed.

Lemma escape_body_same_length s :
  List.length (escape_body s) = List.length s -> Forall is_plain s.
Proof.
  induction s as [|c t IH]; [constructor|].
  rewrite escape_body_cons, length_app. simpl List.length. intros Hlen.
  pose proof (escape_char_length c) as Hc.
  pose proof (escape_body_length t) as Ht.
  destruct (is_plain_dec c) as [Hp|Hp].
  - constructor; [exact Hp|]. apply IH. lia.
  - apply escape_char_not_plain in Hp. lia.
Qed.

End Verbatim.

(** ** Further theorems *)

Lemma Return_inj {A} (x y : A) : Return x = Return y -> x = y.
Proof. now intros [= ->]. Qed.

(** X1.  The returned string tells hosts apart exactly up to the joining
    of surrogate pairs: two successful invocations return the same string
    if and only if the three strings reported to them are equal after
    every high surrogate directly followed by a low surrogate is joined
    into one code point.  A value can therefore never pass for another
    value, or for text of the document around it. *)
Theorem output_identifies_reports w1 w2 a b c a' b' c' :
  valid_host (host w1) -> valid_host (host w2) ->
  reads (host w1) a b c -> reads (host w2) a' b' c' ->
  (fst (Tools.get_host_info w1) = fst (Tools.get_host_info w2) <->
   join_surrogates a = join_surrogates a' /\
   join_surrogates b = join_surrogates b' /\
   join_surrogates c = join_surrogates c').
Proof.
  intros Hv1 Hv2 Hr1 Hr2.
  destruct (valid_host_reads _ _ _ _ Hv1 Hr1) as (Va & Vb & Vc).
  destruct (valid_host_reads _ _ _ _ Hv2 Hr2) as (Va' & Vb' & Vc').
  rewrite (get_host_info_reads w1 a b c Hr1).
  rewrite (get_host_info_reads w2 a' b' c' Hr2).
  cbn [fst]. split.
  - intros E. apply Return_inj in E.
    pose proof (loads_host_info a b c Va Vb Vc) as L1.
    pose proof (loads_host_info a' b' c' Va' Vb' Vc') as L2.
    rewrite E, L2 in L1. unfold host_info in L1.
    injection L1 as Ea Eb Ec. auto.
  - intros (Ea & Eb & Ec). f_equal.
    rewrite <- (dumps_joined a b c), <- (dumps_joined a' b' c').
    now rewrite Ea, Eb, Ec.
Qed.

Lemma output_identifies_reports_witness :
  fst (Tools.get_host_info (mkWorld surrogate_host [])) =
  fst (Tools.get_host_info (mkWorld emoji_host [])) <->
  join_surrogates [0xD83D; 0xDE00] = join_surrogates [0x1F600] /\
  join_surrogates (lit "x86_64") = join_surrogates (lit "x86_64") /\
  join_surrogates (lit "Linux-5.15.0-x86_64-with-glibc2.31") =
  join_surrogates (lit "Linux-5.15.0-x86_64-with-glibc2.31").
Proof.
  apply (output_identifies_reports
           (mkWorld surrogate_host []) (mkWorld emoji_host [])).
  - repeat split; valid_by_evaluation.
  - repeat split; valid_by_evaluation.
  - repeat split.
  - repeat split.
Defined.

(** X2.  The reported strings stand in the returned text as they are,
    between the quotes, exactly when each of them consists of printable
    ASCII characters other than the double quote and the backslash; any
    other character makes the text differ from that plain form. *)
Theorem plain_reports_verbatim w out :
  fst (Tools.get_host_info w) = Return out ->
  exists a b c,
    reads (host w) a b c /\
    (Forall is_plain a /\ Forall is_plain b /\ Forall is_plain c <->
     out = quoted "{'os': '" ++ a ++ quoted "', 'architecture': '" ++ b ++
           quoted "', 'platform': '" ++ c ++ quoted "'}").
Proof.
  intros Hout.
  destruct (get_host_info_returns w out Hout) as (a & b & c & Hr & ->).
  exists a, b, c. split; [exact Hr|]. split.
  - intros (Pa & Pb & Pc). rewrite dumps_host_info.
    now rewrite !escape_body_plain by assumption.
  - intros E. apply (f_equal (@List.length codepoint)) in E.
    rewrite dumps_host_info_length in E.
    rewrite !length_app in E.
    cbn [quoted lit list_ascii_of_string map List.length] in E.
    pose proof (escape_body_length a). pose proof (escape_body_length b).
    pose proof (escape_body_length c).
    repeat split; apply escape_body_same_length; lia.
Qed.

Lemma plain_reports_verbatim_witness :
  exists a b c,
    reads scenario_A a b c /\
    (Forall is_plain a /\ Forall is_plain b /\ Forall is_plain c <->
     quoted "{'os': 'Linux', 'architecture': 'x86_64', 'platform': 'Linux-5.15.0-x86_64-with-glibc2.31'}" =
       quoted "{'os': '" ++ a ++ quoted "', 'architecture': '" ++ b ++
       quoted "', 'platform': '" ++ c ++ quoted "'}").
Proof.
  apply (plain_reports_verbatim (mkWorld scenario_A [])). reflexivity.
Defined.

(** X3.  Whatever the reported strings hold (control characters, line
    breaks, characters outside ASCII), every character of the returned
    string is a printable ASCII character, from space to tilde. *)
Theorem output_is_printable w out :
  fst (Tools.get_host_info w) = Return out -> Forall is_printable out.
Proof.
  intros Hout.
  destruct (get_host_info_returns w out Hout) as (a & b & c & _ & ->).
  apply dumps_host_info_printable.
Qed.

Lemma output_is_printable_witness :
  Forall is_printable
    (quoted "{'os': '\ud83d\ude00', 'architecture': 'x86_64', 'platform': 'Linux-5.15.0-x86_64-with-glibc2.31'}").
Proof.
  apply (output_is_printable (mkWorld surrogate_host [])). reflexivity.
Defined.

(** X4.  The returned string has 46 characters of fixed text and, for each
    character of the three reported strings, between one and twelve
    characters more. *)
Theorem output_length_bounds w out :
  fst (Tools.get_host_info w) = Return out ->
  exists a b c,
    reads (host w) a b c /\
    let n := (List.length a + List.length b + List.length c)%nat in
    (46 + n <= List.length out <= 46 + 12 * n)%nat.
Proof.
  intros Hout.
  destruct (get_host_info_returns w out Hout) as (a & b & c & Hr & ->).
  exists a, b, c. split; [exact Hr|]. cbv zeta.
  rewrite dumps_host_info_length.
  pose proof (escape_body_length a). pose proof (escape_body_length b).
  pose proof (escape_body_length c). lia.
Qed.

Lemma output_length_bounds_witness :
  exists a b c,
    reads surrogate_host a b c /\
    let n := (List.length a + List.length b + List.length c)%nat in
    (46 + n <=
     List.length (quoted "{'os': '\ud83d\ude00', 'architecture': 'x86_64', 'platform': 'Linux-5.15.0-x86_64-with-glibc2.31'}")
     <= 46 + 12 * n)%nat.
Proof.
  apply (output_length_bounds (mkWorld surrogate_host [])). reflexivity.
Defined.

Lemma module_body_main w :
  Tools.module_body "__main__" w =
  match fst (Tools.get_host_info w) with
  | Return out => (Return tt, mkWorld (host w) (stdout w ++ out ++ [10]))
  | Raise e => (Raise e, w)
  end.
Proof.
  unfold Tools.module_body. cbn [String.eqb Ascii.eqb Bool.eqb].
  unfold bind, print. rewrite get_host_info_run. cbn [fst].
  destruct (os_system (host w)); [|reflexivity].
  destruct (os_machine (host w)); [|reflexivity].
  destruct (os_platform (host w)); reflexivity.
Qed.

Lemma loads_host_info_newline a b c :
  valid_str a -> valid_str b -> valid_str c ->
  json_loads (json_dumps (host_info a b c) ++ [10]) =
  Some (host_info (join_surrogates a) (join_surrogates b) (join_surrogates c)).
Proof.
  intros Ha Hb Hc. unfold json_loads, decode.
  assert (Hws : skip_ws (json_dumps (host_info a b c) ++ [10]) =
                json_dumps (host_info a b c) ++ [10]) by reflexivity.
  rewrite Hws.
  assert (Hlen : exists fuel,
             List.length (json_dumps (host_info a b c) ++ [10]) = S (S (S fuel))).
  { rewrite dumps_host_info.
    cbn [quoted lit map list_ascii_of_string app List.length].
    eexists. reflexivity. }
  destruct Hlen as [fuel ->].
  rewrite scan_host_info by assumption.
  reflexivity.
Qed.

Lemma join_empty_iff s : join_surrogates s = [] <-> s = [].
Proof.
  split.
  - intros E. destruct s as [|c t]; [reflexivity|].
    exfalso. revert E. apply join_nonempty. discriminate.
  - now intros ->.
Qed.

(** X5.  What the script writes is one line of JSON: started on an empty
    standard output, a successful run leaves there the returned string and
    a final newline, the returned string itself holds no newline and no
    carriage return, and [json.loads] reads the whole output, newline
    included, as the same dict it reads from the returned string. *)
Theorem script_output_is_one_json_line w out :
  valid_host (host w) ->
  stdout w = [] ->
  fst (Tools.get_host_info w) = Return out ->
  let printed := snd (run_script Tools.module_body w) in
  printed = out ++ [10] /\
  ~ In 10 out /\ ~ In 13 out /\
  exists v, json_loads printed = Some v /\ json_loads out = Some v.
Proof.
  intros Hv Hempty Hout. cbv zeta.
  unfold run_script. rewrite module_body_main, Hout. cbn [snd stdout].
  rewrite Hempty. cbn [app].
  destruct (get_host_info_returns w out Hout) as (a & b & c & Hr & ->).
  destruct (valid_host_reads _ _ _ _ Hv Hr) as (Va & Vb & Vc).
  pose proof (dumps_host_info_printable a b c) as Hp.
  rewrite Forall_forall in Hp.
  split; [reflexivity|].
  split; [intros Hin; apply Hp in Hin; unfold is_printable in Hin; lia|].
  split; [intros Hin; apply Hp in Hin; unfold is_printable in Hin; lia|].
  eexists. split.
  - now apply loads_host_info_newline.
  - now apply loads_host_info.
Qed.

Lemma script_output_is_one_json_line_witness :
  let out := quoted "{'os': 'Linux', 'architecture': 'x86_64', 'platform': 'Linux-5.15.0-x86_64-with-glibc2.31'}" in
  let printed := snd (run_script Tools.module_body (mkWorld scenario_A [])) in
  printed = out ++ [10] /\
  ~ In 10 out /\ ~ In 13 out /\
  exists v, json_loads printed = Some v /\ json_loads out = Some v.
Proof.
  apply (script_output_is_one_json_line (mkWorld scenario_A [])).
  - repeat split; valid_by_evaluation.
  - reflexivity.
  - reflexivity.
Defined.

(** X6.  The program checks no value: a reported string that is empty
    gives a field that is empty.  In the dict read back from the returned
    string, each of the three field values is empty if and only if the
    string reported for it is empty. *)
Theorem field_empty_iff_report_empty w out :
  valid_host (host w) ->
  fst (Tools.get_host_info w) = Return out ->
  exists a b c va vb vc,
    reads (host w) a b c /\
    json_loads out =
      Some (PyDict [ (lit "os", PyStr va); (lit "architecture", PyStr vb);
                     (lit "platform", PyStr vc) ]) /\
    (va = [] <-> a = []) /\ (vb = [] <-> b = []) /\ (vc = [] <-> c = []).
Proof.
  intros Hv Hout.
  destruct (get_host_info_returns w out Hout) as (a & b & c & Hr & ->).
  destruct (valid_host_reads _ _ _ _ Hv Hr) as (Va & Vb & Vc).
  exists a, b, c, (join_surrogates a), (join_surrogates b), (join_surrogates c).
  split; [exact Hr|].
  split; [now apply loads_host_info|].
  repeat split; apply join_empty_iff.
Qed.

Lemma field_empty_iff_report_empty_witness :
  exists a b c va vb vc,
    reads undetermined_host a b c /\
    json_loads (quoted "{'os': 'Linux', 'architecture': '', 'platform': 'Linux-5.15.0-x86_64-with-glibc2.31'}") =
      Some (PyDict [ (lit "os", PyStr va); (lit "architecture", PyStr vb);
                     (lit "platform", PyStr vc) ]) /\
    (va = [] <-> a = []) /\ (vb = [] <-> b = []) /\ (vc = [] <-> c = []).
Proof.
  apply (field_empty_iff_report_empty (mkWorld undetermined_host [])).
  - repeat split; valid_by_evaluation.
  - reflexivity.
Defined.
